(** * RectangleWidget: geometry constraints and the resize state machine

    A shallow embedding of [hyperspy/drawing/_widgets/rectangles.py]
    (class [RectangleWidget]) and the properties of its bounds parser,
    bounds setter, geometry validator, corner-drag handler and keyboard
    size steps.

    Conventions of the embedding

    - Numbers.  The widget computes on Python floats held in two-element
      numpy arrays.  They are embedded as exact rationals [Q]: every
      comparison of the source ([<], [<=], [==], [!=]) is the boolean
      comparison on [Q], and every statement about stored numbers is up to
      [Qeq] unless the stored value is syntactically the input.
    - Arrays.  [self._pos], [self._size] and [self.axes] always have two
      entries; they are pairs, indexed by [dim].
    - State.  [self] is a record; a method is a function from the record
      to the new record, and a method that can raise returns the outcome
      together with the record as it is when the call ends.
    - Collaborators.  [Widget2DBase] and [ResizersMixin] are imported from
      [hyperspy.drawing.widgets], which is not part of this development.
      The two snapping helpers are parameters of the model; the
      notification helpers and the [position]/[size] properties follow
      the description of the change notifier in the specification. *)

From Stdlib Require Import QArith Qminmax Qround Lqa ZArith String.
From stdpp Require Import base option list gmap strings pretty.

Open Scope Q_scope.
Set Warnings "-register-all".

(** ** Numbers *)

Definition Qltb (x y : Q) : bool := negb (Qle_bool y x).
Definition Qgtb (x y : Q) : bool := Qltb y x.

(** ** Two-element arrays *)

Inductive dim := d0 | d1.

Definition item {A : Type} (p : A * A) (idx : dim) : A :=
  match idx with d0 => p.1 | d1 => p.2 end.

Definition setitem {A : Type} (p : A * A) (idx : dim) (v : A) : A * A :=
  match idx with d0 => (v, p.2) | d1 => (p.1, v) end.

(** [np.any(a != b)] on two-element arrays. *)
Definition any_ne (a b : Q * Q) : bool :=
  negb (Qeq_bool a.1 b.1) || negb (Qeq_bool a.2 b.2).

(** ** The axis contract *)

Module Axis.
Record t := mk {
  low_value : Q;
  high_value : Q;
  scale : Q;
  (** Number of samples along the axis. *)
  size : Z;
  (** The value the navigation cursor is at. *)
  value : Q
}.
End Axis.

(** [ax.size * ax.scale]: the full extent of an axis in value units. *)
Definition extent (ax : Axis.t) : Q := inject_Z (Axis.size ax) * Axis.scale ax.

(** ** Python values reaching the bounds parser *)

Inductive value :=
| Num (q : Q)
| Seq (l : list value).

Inductive exn :=
| ValueError (msg : string)
| TypeError.

Inductive result (A : Type) :=
| Return (a : A)
| Raise (e : exn).
Arguments Return {A} a.
Arguments Raise {A} e.

(** ** Widget state *)

Inductive Event := position_changed | size_changed.

Record Widget := mkWidget {
  axes : Axis.t * Axis.t;
  _pos : Q * Q;
  _size : Q * Q;
  _navigating : bool;
  size_step : Q;
  snap_position : bool;
  snap_size : bool;
  picked : bool;
  (** [False] is [None]; a picked corner is its index. *)
  resizer_picked : option Z;
  pick_offset : Q * Q;
  (** The pair that [ResizersMixin._get_resizer_offset()] returns. *)
  resizer_offset : Q * Q;
  (** Notifications fired so far, oldest first. *)
  events : list Event
}.

Definition set_pos (self : Widget) (v : Q * Q) : Widget :=
  mkWidget (axes self) v (_size self) (_navigating self) (size_step self)
    (snap_position self) (snap_size self) (picked self) (resizer_picked self)
    (pick_offset self) (resizer_offset self) (events self).

Definition set_size (self : Widget) (v : Q * Q) : Widget :=
  mkWidget (axes self) (_pos self) v (_navigating self) (size_step self)
    (snap_position self) (snap_size self) (picked self) (resizer_picked self)
    (pick_offset self) (resizer_offset self) (events self).

Definition set_resizer_picked (self : Widget) (v : option Z) : Widget :=
  mkWidget (axes self) (_pos self) (_size self) (_navigating self)
    (size_step self) (snap_position self) (snap_size self) (picked self) v
    (pick_offset self) (resizer_offset self) (events self).

Definition trigger (self : Widget) (e : Event) : Widget :=
  mkWidget (axes self) (_pos self) (_size self) (_navigating self)
    (size_step self) (snap_position self) (snap_size self) (picked self)
    (resizer_picked self) (pick_offset self) (resizer_offset self)
    (events self ++ [e]).

(** [self.resizer_picked += k]; the attribute holds a corner index whenever
    the source reaches this statement. *)
Definition bump_resizer_picked (self : Widget) (k : Z) : Widget :=
  set_resizer_picked self (option_map (fun c => (c + k)%Z) (resizer_picked self)).

(** ** The bounds parser *)

#[global] Instance result_ret : MRet result := @Return.

#[global] Instance result_bind : MBind result := fun A B k r =>
  match r with
  | Return a => k a
  | Raise e => Raise e
  end.

(** [kwargs.pop(k, d)]: the value under [k], or [d], and the dictionary
    without [k]. *)
Definition pop (k : string) (d : value) (kwargs : gmap string value)
  : value * gmap string value :=
  (default d (kwargs !! k), delete k kwargs).

(** [a - b]: defined on numbers, a [TypeError] on sequences. *)
Definition py_sub (a b : value) : result value :=
  match a, b with
  | Num p, Num q => Return (Num (p - q))
  | _, _ => Raise TypeError
  end.

(** [a + b]: numbers add, sequences concatenate, a mix is a [TypeError]. *)
Definition py_add (a b : value) : result value :=
  match a, b with
  | Num p, Num q => Return (Num (p + q))
  | Seq l, Seq k => Return (Seq (l ++ k))
  | _, _ => Raise TypeError
  end.

(** The [else] branch of [_parse_bounds_args] (lines 92 to 102). The inner
    [pop] of each default is evaluated first, as Python evaluates
    arguments before the call. *)
Definition parse_keywords (self : Widget) (kwargs : gmap string value)
  : result value :=
  let '(x_default, kwargs) := pop "left" (Num (_pos self).1) kwargs in
  let '(x, kwargs) := pop "x" x_default kwargs in
  let '(y_default, kwargs) := pop "top" (Num (_pos self).2) kwargs in
  let '(y, kwargs) := pop "y" y_default kwargs in
  '(w, kwargs) ←
    match kwargs !! "right" with
    | Some r => w ← py_sub r x; Return (w, delete "right" kwargs)
    | None =>
        let '(w_default, kwargs) := pop "width" (Num (_size self).1) kwargs in
        Return (pop "w" w_default kwargs)
    end;
  '(h, _) ←
    match kwargs !! "bottom" with
    | Some b => h ← py_sub b y; Return (h, delete "bottom" kwargs)
    | None =>
        let '(h_default, kwargs) := pop "height" (Num (_size self).2) kwargs in
        Return (pop "h" h_default kwargs)
    end;
  Return (Seq [x; y; w; h]).

Definition _parse_bounds_args (self : Widget) (args : list value)
    (kwargs : gmap string value) : result value :=
  match args with
  | [a] => Return a
  | [_; _; _; _] => Return (Seq args)
  | _ =>
      match kwargs !! "bounds" with
      | Some v =>
          if (base.size kwargs =? 1)%nat then Return v
          else parse_keywords self kwargs
      | None => parse_keywords self kwargs
      end
  end.

(** ** Change notification *)

(** Modelled from the spec: the [position] and [size] properties of the
    base class, which read back the stored geometry as a snapshot that
    later in-place updates of [_pos] and [_size] do not reach. *)
Definition position (self : Widget) : Q * Q := _pos self.

Definition size (self : Widget) : Q * Q := _size self.

(** Modelled from the spec: [_size_changed] of the base class fires the
    size-changed notification. *)
Definition _size_changed (self : Widget) : Widget := trigger self size_changed.

(** Modelled from the spec: [_apply_changes] of the base class, the change
    notifier. It compares the stored old geometry with the current one
    componentwise and fires a position-changed event iff the position
    differs and a size-changed event iff the size differs. *)
Definition _apply_changes (self : Widget) (old_size old_position : Q * Q)
  : Widget :=
  let moved := any_ne (position self) old_position in
  let resized := any_ne (size self) old_size in
  let self := if moved then trigger self position_changed else self in
  if resized then trigger self size_changed else self.

(** ** Setting the bounds by value *)

(** [x, y, w, h = v]. *)
Definition unpack4 (v : value) : result (value * value * value * value) :=
  match v with
  | Seq [x; y; w; h] => Return (x, y, w, h)
  | Seq l =>
      if (length l <? 4)%nat then
        Raise (ValueError
                 (if (length l =? 1)%nat then "need more than 1 value to unpack"
                  else "need more than " +:+ pretty (length l) +:+
                       " values to unpack"))
      else Raise (ValueError "too many values to unpack")
  | Num _ => Raise TypeError
  end.

(** [a <= v] and [v <= a] for a number [a]: Python 2 orders every number
    below every sequence. *)
Definition le_num_val (a : Q) (v : value) : bool :=
  match v with Num q => Qle_bool a q | Seq _ => true end.

Definition le_val_num (v : value) (a : Q) : bool :=
  match v with Num q => Qle_bool q a | Seq _ => false end.

(** [lo <= v <= hi]. *)
Definition in_range (lo : Q) (v : value) (hi : Q) : bool :=
  le_num_val lo v && le_val_num v hi.

Definition set_bounds (self : Widget) (args : list value)
    (kwargs : gmap string value) : result unit * Widget :=
  match _parse_bounds_args self args kwargs ≫= unpack4 with
  | Raise e => (Raise e, self)
  | Return (x, y, w, h) =>
    let ax0 := (axes self).1 in
    let ax1 := (axes self).2 in
    let offset := (Axis.scale ax0, Axis.scale ax1) in
    if negb (in_range (Axis.low_value ax0) x (Axis.high_value ax0)) then
      (Raise (ValueError "`left` value is not in range."), self)
    else if negb (in_range (Axis.low_value ax1) y (Axis.high_value ax1)) then
      (Raise (ValueError "`top` value is not in range."), self)
    else
    match py_add x w with
    | Raise e => (Raise e, self)
    | Return xw =>
    if negb (in_range (Axis.low_value ax0) xw
               (Axis.high_value ax0 + offset.1)) then
      (Raise (ValueError "`width` or `right` value is not in range."), self)
    else
    match py_add y h with
    | Raise e => (Raise e, self)
    | Return yh =>
    if negb (in_range (Axis.low_value ax1) yh
               (Axis.high_value ax1 + offset.2)) then
      (Raise (ValueError "`height` or `bottom` value is not in range."), self)
    else
      let old_position := position self in
      let old_size := size self in
      match x, y, w, h with
      | Num x, Num y, Num w, Num h =>
          let self := set_pos self (x, y) in
          let self := set_size self (w, h) in
          (Return tt, _apply_changes self old_size old_position)
      | _, _, _, _ =>
          (* not reached: all four passed a numeric check above *)
          (Raise TypeError, self)
      end
    end
    end
  end.

(** ** Mouse events *)

Record MouseEvent := mkMouseEvent {
  inaxes : bool;
  xdata : Q;
  ydata : Q
}.

(** Modelled from the spec: the snapping helpers [_do_snap_position] and
    [_do_snap_size] of the base classes, which are missing here. A value is
    rounded to the nearest multiple of the snap step, the step being the
    axis scale; a tie rounds up. They instantiate the parameters of the
    model below wherever a concrete widget is run. *)
Definition round_to (step v : Q) : Q :=
  inject_Z (Qfloor (v / step + (1 # 2))) * step.

Definition spec_do_snap_position (self : Widget) : Widget :=
  set_pos self
    (round_to (Axis.scale (axes self).1) (_pos self).1,
     round_to (Axis.scale (axes self).2) (_pos self).2).

Definition spec_do_snap_size (self : Widget) : Widget :=
  set_size self
    (round_to (Axis.scale (axes self).1) (_size self).1,
     round_to (Axis.scale (axes self).2) (_size self).2).

(** ** Concrete widgets

    Both axes run from 0 to 10 in steps of 1 (11 samples). *)
Definition axis_0_10 : Axis.t := Axis.mk 0 10 1 11 0.

(** A 3 by 3 rectangle at (5, 5) with corner [c] picked, not snapping;
    the resize handles sit on the border. *)
Definition picked_widget (c : Z) : Widget :=
  mkWidget (axis_0_10, axis_0_10) (5, 5) (3, 3) false 1 false false
    true (Some c) (0, 0) (0, 0) [].

(** A rectangle as wide as the axis, idle. *)
Definition full_width_widget : Widget :=
  mkWidget (axis_0_10, axis_0_10) (0, 0) (11, 1) false 1 false false
    false None (0, 0) (0, 0) [].

(** A rectangle of one scale unit each way, idle. *)
Definition unit_widget : Widget :=
  mkWidget (axis_0_10, axis_0_10) (2, 2) (1, 1) false 1 false false
    false None (0, 0) (0, 0) [].

(** A 3 by 3 rectangle at (2, 2) that follows the cursor, which is at 4. *)
Definition navigating_widget : Widget :=
  mkWidget (Axis.mk 0 10 1 11 4, axis_0_10) (2, 2) (3, 3) true 1 false false
    false None (0, 0) (0, 0) [].

(** The accepted argument shapes in the words of the specification: a
    single 4-tuple (positional, or under the [bounds] keyword), four
    positional values, or a keyword mapping of recognized keys. *)
Definition recognized_keys : gset string :=
  list_to_set ["x"; "left"; "y"; "top"; "w"; "width"; "right";
               "h"; "height"; "bottom"]%string.

Definition accepted_shape (args : list value) (kwargs : gmap string value)
  : bool :=
  match args with
  | [Seq [_; _; _; _]] => true
  | [_; _; _; _] => true
  | [] =>
      bool_decide (dom kwargs ⊆ recognized_keys)
      || match kwargs !! "bounds" with
         | Some (Seq [_; _; _; _]) => (base.size kwargs =? 1)%nat
         | _ => false
         end
  | _ => false
  end.

(** Steps 2 and 3 of the validator in the words of the specification:
    clamp the candidate to [[low_value, high_value]], then pull a far edge
    beyond [high_value + scale] back to that ceiling and recompute the
    position as [edge - size]. *)
Definition clamp (lo hi v : Q) : Q := Qmin (Qmax v lo) hi.

Definition spec_place (ax : Axis.t) (candidate sz : Q) : Q :=
  let pos := clamp (Axis.low_value ax) (Axis.high_value ax) candidate in
  let ceiling := Axis.high_value ax + Axis.scale ax in
  let edge := Qmin (pos + sz) ceiling in
  edge - sz.

(** One axis of lines 296 to 320 of the validator, as a function of the
    candidate [cand] (or the current position [cur] when there is none) and
    of the size [sz] on that axis: the position the validator stores. *)
Definition place (ax : Axis.t) (cand : option Q) (cur sz : Q) : Q :=
  let x1 :=
    match cand with
    | None => cur
    | Some x1 =>
        if Qltb x1 (Axis.low_value ax) then Axis.low_value ax
        else if Qgtb x1 (Axis.high_value ax) then Axis.high_value ax
        else x1
    end in
  if Qgtb (x1 + sz) (Axis.high_value ax + Axis.scale ax)
  then Axis.high_value ax + Axis.scale ax - sz
  else x1.

(** A 3 by 3 rectangle at (5, 5) picked as a whole, one unit right of and
    below its position. *)
Definition dragged_widget : Widget :=
  mkWidget (axis_0_10, axis_0_10) (5, 5) (3, 3) false 1 false false
    true None (1, 1) (0, 0) [].

Section RectangleWidget.

(** [_do_snap_position] and [_do_snap_size] belong to the base classes and
    are called only when the matching flag is set; the model is parametric
    in what they do to the widget. *)
Variable _do_snap_position : Widget -> Widget.
Variable _do_snap_size : Widget -> Widget.

(** ** The geometry validator *)

Definition _validate_geometry (self : Widget) (x1 y1 : option Q) : Widget :=
  let xaxis := (axes self).1 in
  let yaxis := (axes self).2 in
  (* Make sure widget size is not larger than axes *)
  let self :=
    set_size self (setitem (_size self) d0
                     (Qmin (_size self).1 (extent xaxis))) in
  let self :=
    set_size self (setitem (_size self) d1
                     (Qmin (_size self).2 (extent yaxis))) in
  (* Make sure x1/y1 is within bounds *)
  let x1 :=
    match x1 with
    | None => (_pos self).1
    | Some x1 =>
        if Qltb x1 (Axis.low_value xaxis) then Axis.low_value xaxis
        else if Qgtb x1 (Axis.high_value xaxis) then Axis.high_value xaxis
        else x1
    end in
  let y1 :=
    match y1 with
    | None => (_pos self).2
    | Some y1 =>
        if Qltb y1 (Axis.low_value yaxis) then Axis.low_value yaxis
        else if Qgtb y1 (Axis.high_value yaxis) then Axis.high_value yaxis
        else y1
    end in
  (* Make sure x2/y2 is with upper bound. If not, keep dims, and change x1/y1 *)
  let x2 := x1 + (_size self).1 in
  let y2 := y1 + (_size self).2 in
  let x1 :=
    if Qgtb x2 (Axis.high_value xaxis + Axis.scale xaxis) then
      let x2 := Axis.high_value xaxis + Axis.scale xaxis in
      x2 - (_size self).1
    else x1 in
  let y1 :=
    if Qgtb y2 (Axis.high_value yaxis + Axis.scale yaxis) then
      let y2 := Axis.high_value yaxis + Axis.scale yaxis in
      y2 - (_size self).2
    else y1 in
  let self := set_pos self (x1, y1) in
  (* Apply snaps if appropriate *)
  let self := if snap_position self then _do_snap_position self else self in
  let self := if snap_size self then _do_snap_size self else self in
  self.

(** ** Internals that trigger events *)

Definition _set_size (self : Widget) (v : Q * Q) : Widget :=
  let xaxis := (axes self).1 in
  let yaxis := (axes self).2 in
  let v := (Qmin v.1 (extent xaxis), Qmin v.2 (extent yaxis)) in
  let v := (Qmax v.1 (Axis.scale xaxis), Qmax v.2 (Axis.scale yaxis)) in
  if any_ne (_size self) v then
    let old := _size self in
    let self := set_size self v in
    let self := _validate_geometry self None None in
    if any_ne (_size self) old then _size_changed self else self
  else self.

Definition _set_a_size (self : Widget) (idx : dim) (v : Q) : Widget :=
  if Qeq_bool (item (_size self) idx) v || Qle_bool v 0 then self
  else
    (* If we are pushed "past" an edge, size towards it *)
    let self :=
      if _navigating self
         && Qgtb (Axis.value (item (axes self) idx)) (item (_pos self) idx)
      then
        if Qltb v (item (_size self) idx) then
          set_pos self
            (setitem (_pos self) idx
               (item (_pos self) idx + (item (_size self) idx - v)))
        else self
      else self in
    let self := set_size self (setitem (_size self) idx v) in
    let self := _validate_geometry self None None in
    _size_changed self.

Definition _increase_xsize (self : Widget) : Widget :=
  _set_a_size self d0
    ((_size self).1 + Axis.scale (axes self).1 * size_step self).

Definition _decrease_xsize (self : Widget) : Widget :=
  let new_s := (_size self).1 - Axis.scale (axes self).1 * size_step self in
  let new_s := Qmax new_s (Axis.scale (axes self).1) in
  _set_a_size self d0 new_s.

Definition _increase_ysize (self : Widget) : Widget :=
  _set_a_size self d1
    ((_size self).2 + Axis.scale (axes self).2 * size_step self).


(** ** Dragging *)

(** [self._pos - 0.5 * np.array(offset)]: the top left of the patch. *)
Definition _get_patch_xy (self : Widget) : Q * Q :=
  ((_pos self).1 - 0.5 * Axis.scale (axes self).1,
   (_pos self).2 - 0.5 * Axis.scale (axes self).2).

(** Lines 363 to 387: the x axis of a corner drag. [lo] and [hi] are
    [bounds[0]] and [bounds[2]]; the result is [posx] and the widget. *)
Definition resize_x (self : Widget) (corner : Z) (x lo hi : Q)
  : option Q * Widget :=
  let xaxis := (axes self).1 in
  if (corner mod 2 =? 0)%Z then
    if Qgtb x hi then
      let posx := hi in
      let self := set_size self (setitem (_size self) d0 (x - posx)) in
      (Some posx, bump_resizer_picked self 1)
    else if Qltb (hi - x) (Axis.scale xaxis) then
      let posx := hi - Axis.scale xaxis in
      (Some posx, set_size self (setitem (_size self) d0 (hi - posx)))
    else
      let posx := x in
      (Some posx, set_size self (setitem (_size self) d0 (hi - x)))
  else
    if Qltb x lo then
      let posx :=
        if Qltb (lo - x) (Axis.scale xaxis) then lo - Axis.scale xaxis
        else x in
      let self := set_size self (setitem (_size self) d0 (lo - posx)) in
      (Some posx, bump_resizer_picked self (-1))
    else
      (None, set_size self (setitem (_size self) d0 (x - lo))).

(** Lines 388 to 411: the y axis, on [bounds[1]] and [bounds[3]]. *)
Definition resize_y (self : Widget) (corner : Z) (y lo hi : Q)
  : option Q * Widget :=
  let yaxis := (axes self).2 in
  if (corner / 2 =? 0)%Z then
    if Qgtb y hi then
      let posy := hi in
      let self := set_size self (setitem (_size self) d1 (y - posy)) in
      (Some posy, bump_resizer_picked self 2)
    else if Qltb (hi - y) (Axis.scale yaxis) then
      let posy := hi - Axis.scale yaxis in
      (Some posy, set_size self (setitem (_size self) d1 (hi - posy)))
    else
      let posy := y in
      (Some posy, set_size self (setitem (_size self) d1 (hi - y)))
  else
    if Qltb y lo then
      let posy :=
        if Qltb (lo - y) (Axis.scale yaxis) then lo - Axis.scale yaxis
        else y in
      let self := set_size self (setitem (_size self) d1 (lo - posy)) in
      (Some posy, bump_resizer_picked self (-2))
    else
      (None, set_size self (setitem (_size self) d1 (y - lo))).

Definition _onmousemove (self : Widget) (event : MouseEvent) : Widget :=
  if picked self && inaxes event then
    let xaxis := (axes self).1 in
    let yaxis := (axes self).2 in
    (* Mouse position *)
    let x := xdata event in
    let y := ydata event in
    let p := _get_patch_xy self in
    (* Old bounds *)
    let bounds :=
      (p.1, p.2, p.1 + (_size self).1, p.2 + (_size self).2) in
    let '(b0, b1, b2, b3) := bounds in
    (* Store geometry for _apply_changes at end *)
    let old_position := position self in
    let old_size := size self in
    let self :=
      match resizer_picked self with
      | None =>
          let x := x - (pick_offset self).1 in
          let y := y - (pick_offset self).2 in
          _validate_geometry self (Some x) (Some y)
      | Some corner =>
          (* Adjust for resizer position *)
          let offset := resizer_offset self in
          let x := x + offset.1 * (0.5 - 1 * inject_Z (corner mod 2)) in
          let y := y + offset.2 * (0.5 - 1 * inject_Z (corner / 2)) in
          let '(posx, self) := resize_x self corner x b0 b2 in
          let '(posy, self) := resize_y self corner y b1 b3 in
          (* Bound size to scale *)
          let self :=
            if Qltb (_size self).1 (Axis.scale xaxis) then
              set_size self (setitem (_size self) d0 (Axis.scale xaxis))
            else self in
          let self :=
            if Qltb (_size self).2 (Axis.scale yaxis) then
              set_size self (setitem (_size self) d1 (Axis.scale yaxis))
            else self in
          let posx := option_map (fun posx => posx + 0.5 * Axis.scale xaxis) posx in
          let posy := option_map (fun posy => posy + 0.5 * Axis.scale yaxis) posy in
          (* Validate the geometry *)
          _validate_geometry self posx posy
      end in
    (* Finally, apply any changes and trigger events/redraw *)
    _apply_changes self old_size old_position
  else self.

(** * Properties *)

Lemma Qltb_true x y : Qltb x y = true <-> x < y.
Proof.
  unfold Qltb. rewrite negb_true_iff.
  split; intros H.
  - apply Qnot_le_lt. intros Hle. apply Qle_bool_iff in Hle. congruence.
  - destruct (Qle_bool y x) eqn:E; [|reflexivity].
    apply Qle_bool_iff in E. lra.
Qed.

Lemma Qltb_false x y : Qltb x y = false <-> y <= x.
Proof.
  unfold Qltb. rewrite negb_false_iff. apply Qle_bool_iff.
Qed.

Lemma Qeq_bool_false x y : Qeq_bool x y = false <-> ~ x == y.
Proof.
  split.
  - apply Qeq_bool_neq.
  - intros H. destruct (Qeq_bool x y) eqn:E; [|reflexivity].
    apply Qeq_bool_iff in E. contradiction.
Qed.

(** Case analysis on the comparisons and on [min]/[max] of a goal, leaving
    linear arithmetic over [Q]. *)
Ltac cmp_case c :=
  let E := fresh "E" in
  lazymatch c with
  | Qltb ?a ?b =>
      destruct c eqn:E; [apply Qltb_true in E | apply Qltb_false in E]
  | Qle_bool ?a ?b =>
      destruct c eqn:E;
      [apply Qle_bool_iff in E
      |apply not_true_iff_false in E; rewrite Qle_bool_iff in E]
  | Qeq_bool ?a ?b =>
      destruct c eqn:E; [apply Qeq_bool_iff in E | apply Qeq_bool_false in E]
  end.

Ltac cmp_cases :=
  unfold Qgtb in *;
  repeat match goal with
  | |- context [Qltb ?a ?b] => cmp_case (Qltb a b)
  | |- context [Qle_bool ?a ?b] => cmp_case (Qle_bool a b)
  | |- context [Qeq_bool ?a ?b] => cmp_case (Qeq_bool a b)
  | _ : context [Qltb ?a ?b] |- _ => cmp_case (Qltb a b)
  | _ : context [Qle_bool ?a ?b] |- _ => cmp_case (Qle_bool a b)
  | _ : context [Qeq_bool ?a ?b] |- _ => cmp_case (Qeq_bool a b)
  end.

Ltac minmax_cases :=
  repeat match goal with
  | |- context [Qmin ?a ?b] =>
      pose proof (Q.min_spec a b);
      generalize dependent (Qmin a b); intros
  | |- context [Qmax ?a ?b] =>
      pose proof (Q.max_spec a b);
      generalize dependent (Qmax a b); intros
  | _ : context [Qmin ?a ?b] |- _ =>
      pose proof (Q.min_spec a b);
      generalize dependent (Qmin a b); intros
  | _ : context [Qmax ?a ?b] |- _ =>
      pose proof (Q.max_spec a b);
      generalize dependent (Qmax a b); intros
  end.


(** C4. For a supplied candidate the validator clamps it to the value range
    of its axis and then, where the far edge would pass
    [high_value + scale], moves the rectangle back so that the far edge is
    on that ceiling. The size these steps work with is the one left by the
    extent limit: it is not changed by the move. *)
Theorem validate_geometry_moves_not_shrinks (self : Widget) (x1 y1 : Q) :
  snap_position self = false ->
  snap_size self = false ->
  let xaxis := (axes self).1 in
  let yaxis := (axes self).2 in
  Axis.low_value xaxis <= Axis.high_value xaxis ->
  Axis.low_value yaxis <= Axis.high_value yaxis ->
  let sz := (Qmin (_size self).1 (extent xaxis),
             Qmin (_size self).2 (extent yaxis)) in
  let self' := _validate_geometry self (Some x1) (Some y1) in
  _size self' = sz /\
  (_pos self').1 == spec_place xaxis x1 sz.1 /\
  (_pos self').2 == spec_place yaxis y1 sz.2.
Proof.
  intros Hp Hs xaxis yaxis Hx Hy. subst xaxis yaxis.
  unfold _validate_geometry. cbn. rewrite Hp. cbn. rewrite Hs. cbn.
  split; [reflexivity|].
  unfold spec_place, clamp.
  split; cmp_cases; cbn; minmax_cases; lra.
Qed.

(** ** The bounds setter *)

Lemma parse_four_positional (self : Widget) (kwargs : gmap string value)
    (x y w h : value) :
  _parse_bounds_args self [x; y; w; h] kwargs = Return (Seq [x; y; w; h]).
Proof using Type.
  clear _do_snap_position _do_snap_size. reflexivity. Qed.

Lemma in_range_spec (lo x hi : Q) :
  in_range lo (Num x) hi = true <-> lo <= x /\ x <= hi.
Proof using Type.
  clear _do_snap_position _do_snap_size.
  unfold in_range. cbn. rewrite andb_true_iff, !Qle_bool_iff. reflexivity.
Qed.

(** Decide the next range check of a goal about [set_bounds]. *)
Ltac range_case :=
  match goal with
  | |- context [in_range ?lo (Num ?x) ?hi] =>
      let E := fresh "E" in
      destruct (in_range lo (Num x) hi) eqn:E;
      [apply in_range_spec in E
      |apply not_true_iff_false in E; rewrite in_range_spec in E];
      cbn -[in_range]
  end.



(** C3. For every [(x, y, w, h)] that passes the four range checks,
    [set_bounds] returns and the position and size read back afterwards are
    exactly [(x, y)] and [(w, h)]. *)
Theorem set_bounds_read_back (self : Widget) (args : list value)
    (kwargs : gmap string value) (x y w h : Q) :
  _parse_bounds_args self args kwargs = Return (Seq [Num x; Num y; Num w; Num h]) ->
  let xaxis := (axes self).1 in
  let yaxis := (axes self).2 in
  Axis.low_value xaxis <= x <= Axis.high_value xaxis ->
  Axis.low_value yaxis <= y <= Axis.high_value yaxis ->
  Axis.low_value xaxis <= x + w <= Axis.high_value xaxis + Axis.scale xaxis ->
  Axis.low_value yaxis <= y + h <= Axis.high_value yaxis + Axis.scale yaxis ->
  exists self',
    set_bounds self args kwargs = (Return tt, self') /\
    position self' = (x, y) /\ size self' = (w, h).
Proof using Type.
  clear _do_snap_position _do_snap_size.
  intros Hparse xaxis yaxis Hx Hy Hw Hh. subst xaxis yaxis.
  unfold set_bounds. rewrite Hparse. cbn -[in_range].
  repeat (range_case; try tauto).
  eexists. split; [reflexivity|].
  unfold _apply_changes.
  repeat match goal with |- context [if ?c then _ else _] => destruct c end;
    split; reflexivity.
Qed.

(** ** The bounds parser *)

Lemma py_sub_raise (a b : value) (e : exn) :
  py_sub a b = Raise e -> e = TypeError.
Proof using Type.
  clear _do_snap_position _do_snap_size. unfold py_sub. repeat case_match; congruence. Qed.

Lemma parse_falls_to_keywords (self : Widget) (args : list value)
    (kwargs : gmap string value) :
  length args <> 1%nat -> length args <> 4%nat ->
  ~ (base.size kwargs = 1%nat /\ is_Some (kwargs !! "bounds")) ->
  _parse_bounds_args self args kwargs = parse_keywords self kwargs.
Proof using Type.
  clear _do_snap_position _do_snap_size.
  intros H1 H4 Hb. unfold _parse_bounds_args.
  destruct args as [|a [|b [|c [|d [|e args]]]]]; cbn in H1, H4; try done.
  all: destruct (kwargs !! "bounds") as [v|] eqn:E; [|reflexivity].
  all: destruct (Nat.eqb_spec (base.size kwargs) 1); [|reflexivity].
  all: exfalso; apply Hb; split; [assumption | by eexists].
Qed.

(** C8, as the code has it. The parser has no failure for a shape it does
    not know: whenever the input is neither one positional value, nor four,
    nor the single keyword [bounds], positional values and unknown keys are
    ignored and the keyword branch answers. It can only fail with a
    [TypeError], in the subtraction for [right] or [bottom]; otherwise it
    returns a 4-tuple in which every dimension that no keyword names is
    the current one, the width and height being the current width and
    height whatever [x] and [y] are. *)
Theorem parse_bounds_keyword_defaults (self : Widget) (args : list value)
    (kwargs : gmap string value) :
  length args <> 1%nat -> length args <> 4%nat ->
  ~ (base.size kwargs = 1%nat /\ is_Some (kwargs !! "bounds")) ->
  let r := _parse_bounds_args self args kwargs in
  (forall e, r = Raise e ->
     e = TypeError /\
     (is_Some (kwargs !! "right") \/ is_Some (kwargs !! "bottom"))) /\
  (forall v, r = Return v ->
     exists x y w h,
       v = Seq [x; y; w; h] /\
       (kwargs !! "x" = None -> kwargs !! "left" = None ->
          x = Num (_pos self).1) /\
       (kwargs !! "y" = None -> kwargs !! "top" = None ->
          y = Num (_pos self).2) /\
       (kwargs !! "right" = None -> kwargs !! "w" = None ->
        kwargs !! "width" = None -> w = Num (_size self).1) /\
       (kwargs !! "bottom" = None -> kwargs !! "h" = None ->
        kwargs !! "height" = None -> h = Num (_size self).2)).
Proof using Type.
  clear _do_snap_position _do_snap_size.
  intros H1 H4 Hb r. subst r.
  rewrite (parse_falls_to_keywords _ _ _ H1 H4 Hb).
  unfold parse_keywords, pop.
  destruct (kwargs !! "right") as [vr|] eqn:Er;
    destruct (kwargs !! "bottom") as [vb|] eqn:Eb.
  all: repeat first
       [ rewrite lookup_delete_ne by done
       | rewrite Er | rewrite Eb
       | progress cbn
       | match goal with
         | |- context [py_sub ?a ?b] =>
             let E := fresh "E" in
             destruct (py_sub a b) eqn:E;
             [|apply py_sub_raise in E; subst]
         end ].
  all: split;
    [intros e He;
     first [discriminate
           |injection He as <-;
            split; [reflexivity | eauto using mk_is_Some]]
    |intros v Hv;
     first [discriminate
           |injection Hv as <-;
            do 4 eexists; split; [reflexivity|];
            repeat split; intros;
            repeat match goal with H : _ = None |- _ => rewrite H end;
            try discriminate; reflexivity]].
Qed.

(** ** The corner-drag handler *)

(** Projections through the setters, without touching arithmetic. *)
Ltac fields :=
  cbn [fst snd axes _pos _size _navigating size_step snap_position snap_size
       picked resizer_picked pick_offset resizer_offset events
       set_pos set_size set_resizer_picked bump_resizer_picked trigger
       setitem item option_map] in *.

Lemma apply_changes_fields (self : Widget) (old_size old_position : Q * Q) :
  let self' := _apply_changes self old_size old_position in
  _pos self' = _pos self /\ _size self' = _size self /\
  resizer_picked self' = resizer_picked self /\ axes self' = axes self.
Proof using Type.
  clear _do_snap_position _do_snap_size.
  unfold _apply_changes.
  destruct (any_ne (position self) old_position),
    (any_ne (size self) old_size); cbn; auto.
Qed.

(** With snapping off the validator touches the geometry only, and the
    size it leaves is the old one limited to the extent of the axes. *)
Lemma validate_geometry_fields (self : Widget) (x1 y1 : option Q) :
  snap_position self = false -> snap_size self = false ->
  let self' := _validate_geometry self x1 y1 in
  _size self' = (Qmin (_size self).1 (extent (axes self).1),
                 Qmin (_size self).2 (extent (axes self).2)) /\
  resizer_picked self' = resizer_picked self /\
  events self' = events self /\ axes self' = axes self.
Proof.
  intros Hp Hs. unfold _validate_geometry. fields. rewrite Hp. fields.
  rewrite Hs. fields. auto.
Qed.

(** What the x axis of a corner drag leaves alone, and what it does to the
    width and to the picked corner in each of its cases. *)
Lemma resize_x_spec (self : Widget) (corner : Z) (x lo hi : Q) :
  let self' := (resize_x self corner x lo hi).2 in
  let sc := Axis.scale (axes self).1 in
  (axes self' = axes self /\ snap_position self' = snap_position self /\
   snap_size self' = snap_size self /\ (_size self').2 = (_size self).2) /\
  ((corner mod 2 = 0)%Z -> hi < x ->
     resizer_picked self' = option_map (fun c => (c + 1)%Z) (resizer_picked self) /\
     (_size self').1 == x - hi) /\
  ((corner mod 2 = 0)%Z -> x <= hi ->
     resizer_picked self' = resizer_picked self /\
     (_size self').1 == Qmax (hi - x) sc) /\
  ((corner mod 2 <> 0)%Z -> x < lo ->
     resizer_picked self' = option_map (fun c => (c + -1)%Z) (resizer_picked self) /\
     (_size self').1 == Qmax (lo - x) sc) /\
  ((corner mod 2 <> 0)%Z -> lo <= x ->
     resizer_picked self' = resizer_picked self /\
     (_size self').1 == x - lo).
Proof.
  cbv zeta. unfold resize_x, Qgtb.
  destruct (Z.eqb_spec (corner mod 2) 0) as [Hc|Hc].
  all: repeat match goal with
       | |- context [Qltb ?a ?b] => cmp_case (Qltb a b)
       end; fields.
  all: repeat apply conj; try reflexivity; intros; try contradiction;
       try (exfalso; lra); (split; [reflexivity|]); minmax_cases; lra.
Qed.

Lemma resize_y_spec (self : Widget) (corner : Z) (y lo hi : Q) :
  let self' := (resize_y self corner y lo hi).2 in
  let sc := Axis.scale (axes self).2 in
  (axes self' = axes self /\ snap_position self' = snap_position self /\
   snap_size self' = snap_size self /\ (_size self').1 = (_size self).1) /\
  ((corner / 2 = 0)%Z -> hi < y ->
     resizer_picked self' = option_map (fun c => (c + 2)%Z) (resizer_picked self) /\
     (_size self').2 == y - hi) /\
  ((corner / 2 = 0)%Z -> y <= hi ->
     resizer_picked self' = resizer_picked self /\
     (_size self').2 == Qmax (hi - y) sc) /\
  ((corner / 2 <> 0)%Z -> y < lo ->
     resizer_picked self' = option_map (fun c => (c + -2)%Z) (resizer_picked self) /\
     (_size self').2 == Qmax (lo - y) sc) /\
  ((corner / 2 <> 0)%Z -> lo <= y ->
     resizer_picked self' = resizer_picked self /\
     (_size self').2 == y - lo).
Proof.
  cbv zeta. unfold resize_y, Qgtb.
  destruct (Z.eqb_spec (corner / 2) 0) as [Hc|Hc].
  all: repeat match goal with
       | |- context [Qltb ?a ?b] => cmp_case (Qltb a b)
       end; fields.
  all: repeat apply conj; try reflexivity; intros; try contradiction;
       try (exfalso; lra); (split; [reflexivity|]); minmax_cases; lra.
Qed.

(** A corner drag, with snapping off: the picked corner is the one the two
    axis steps leave, and each size component is what its axis step left,
    raised to one scale unit and limited to the extent of the axis. *)
Lemma onmousemove_corner (self : Widget) (event : MouseEvent) (corner : Z) :
  picked self = true -> inaxes event = true ->
  resizer_picked self = Some corner ->
  snap_position self = false -> snap_size self = false ->
  let xaxis := (axes self).1 in
  let yaxis := (axes self).2 in
  let x := xdata event
           + (resizer_offset self).1 * (0.5 - 1 * inject_Z (corner mod 2)) in
  let y := ydata event
           + (resizer_offset self).2 * (0.5 - 1 * inject_Z (corner / 2)) in
  let p := _get_patch_xy self in
  let s1 := (resize_x self corner x p.1 (p.1 + (_size self).1)).2 in
  let s2 := (resize_y s1 corner y p.2 (p.2 + (_size self).2)).2 in
  let self' := _onmousemove self event in
  resizer_picked self' = resizer_picked s2 /\
  (_size self').1 == Qmin (Qmax (_size s2).1 (Axis.scale xaxis)) (extent xaxis) /\
  (_size self').2 == Qmin (Qmax (_size s2).2 (Axis.scale yaxis)) (extent yaxis).
Proof.
  intros Hpk Hin Hrp Hp Hs. cbv zeta.
  unfold _onmousemove. rewrite Hpk, Hin, Hrp. cbn [andb]. cbv zeta.
  set (x := xdata event + _). set (y := ydata event + _).
  set (p := _get_patch_xy self).
  pose proof (resize_x_spec self corner x p.1 (p.1 + (_size self).1))
    as ((Hax1 & Hp1 & Hs1 & _) & _).
  destruct (resize_x self corner x p.1 (p.1 + (_size self).1))
    as [posx s1] eqn:Ex.
  cbn [fst snd] in *.
  pose proof (resize_y_spec s1 corner y p.2 (p.2 + (_size self).2))
    as ((Hax2 & Hp2 & Hs2 & _) & _).
  destruct (resize_y s1 corner y p.2 (p.2 + (_size self).2))
    as [posy s2] eqn:Ey.
  cbn [fst snd] in *.
  match goal with
  | |- context [_apply_changes ?s ?a ?b] =>
      destruct (apply_changes_fields s a b) as (_ & -> & -> & _)
  end.
  match goal with
  | |- context [_validate_geometry ?s ?a ?b] =>
      destruct (validate_geometry_fields s a b) as (-> & -> & _ & _)
  end.
  1-2: repeat match goal with
       | |- context [if ?c then _ else _] => destruct c
       end; fields; congruence.
  assert (Hax : axes s2 = axes self) by congruence.
  repeat match goal with
  | |- context [Qltb ?a ?b] => cmp_case (Qltb a b)
  end; fields; rewrite ?Hax; repeat apply conj; try reflexivity;
    minmax_cases; lra.
Qed.




(** ** Keyboard size steps *)



(** ** Notifications *)

(** The notifier that [set_bounds] and [_onmousemove] end with reports a
    move exactly when the position differs from the old one and a resize
    exactly when the size does, and nothing otherwise. *)
Lemma apply_changes_events (self : Widget) (old_size old_position : Q * Q) :
  events (_apply_changes self old_size old_position) =
  events self
  ++ (if any_ne (position self) old_position then [position_changed] else [])
  ++ (if any_ne (size self) old_size then [size_changed] else []).
Proof using Type.
  clear _do_snap_position _do_snap_size.
  unfold _apply_changes.
  destruct (any_ne (position self) old_position),
    (any_ne (size self) old_size); cbn; rewrite ?app_nil_r; try reflexivity.
  rewrite <- app_assoc. reflexivity.
Qed.

Lemma any_ne_refl (a : Q * Q) : any_ne a a = false.
Proof using Type.
  clear _do_snap_position _do_snap_size.
  unfold any_ne. rewrite !Qeq_bool_refl. reflexivity.
Qed.

(** X12. [_set_size], the sibling of [_set_a_size], checks before it notifies:
    with snapping off it fires a size-changed event exactly when the size
    it commits differs from the old one. *)
Lemma set_size_notifies_on_change (self : Widget) (v : Q * Q) :
  snap_position self = false -> snap_size self = false ->
  let self' := _set_size self v in
  events self' =
  events self ++ (if any_ne (_size self') (_size self) then [size_changed]
                  else []).
Proof.
  intros Hp Hs. cbv zeta. unfold _set_size.
  destruct (any_ne (_size self) _) eqn:E.
  - match goal with
    | |- context [_validate_geometry ?s None None] =>
        destruct (validate_geometry_fields s None None Hp Hs)
          as (_ & _ & Hev & _);
        destruct (any_ne (_size (_validate_geometry s None None)) (_size self))
          eqn:E'
    end.
    + unfold _size_changed. fields. rewrite E', Hev. reflexivity.
    + rewrite E', Hev. fields. rewrite app_nil_r. reflexivity.
  - rewrite any_ne_refl, app_nil_r. reflexivity.
Qed.

(** * Further properties *)

(** ** The validator *)

Lemma Qmin_left (x y : Q) : x <= y -> Qmin x y = x.
Proof using Type.
  clear _do_snap_position _do_snap_size.
  intros H. unfold Qmin, GenericMinMax.gmin.
  destruct (x ?= y) eqn:E; try reflexivity.
  apply Qgt_alt in E. lra.
Qed.

(** With snapping off the validator changes the size and the position
    only, and the position it stores is [place] on each axis. *)
Lemma validate_geometry_eq (self : Widget) (x1 y1 : option Q) :
  snap_position self = false -> snap_size self = false ->
  let sz := (Qmin (_size self).1 (extent (axes self).1),
             Qmin (_size self).2 (extent (axes self).2)) in
  _validate_geometry self x1 y1 =
  set_pos (set_size self sz)
    (place (axes self).1 x1 (_pos self).1 sz.1,
     place (axes self).2 y1 (_pos self).2 sz.2).
Proof.
  intros Hp Hs. unfold _validate_geometry, place. fields. rewrite Hp. fields.
  rewrite Hs. reflexivity.
Qed.

Lemma place_le_ceiling (ax : Axis.t) (cand : option Q) (cur sz : Q) :
  place ax cand cur sz + sz <= Axis.high_value ax + Axis.scale ax.
Proof using Type.
  clear _do_snap_position _do_snap_size.
  unfold place. destruct cand; cmp_cases; lra.
Qed.


Lemma validate_valid_geometry (self : Widget) :
  snap_position self = false -> snap_size self = false ->
  (_size self).1 <= extent (axes self).1 ->
  (_size self).2 <= extent (axes self).2 ->
  (_pos self).1 + (_size self).1
    <= Axis.high_value (axes self).1 + Axis.scale (axes self).1 ->
  (_pos self).2 + (_size self).2
    <= Axis.high_value (axes self).2 + Axis.scale (axes self).2 ->
  _validate_geometry self None None = self.
Proof.
  intros Hp Hs Hw Hh Hx Hy.
  rewrite (validate_geometry_eq _ _ _ Hp Hs). cbv zeta.
  rewrite (Qmin_left _ _ Hw), (Qmin_left _ _ Hh). unfold place, Qgtb.
  fields.
  apply Qltb_false in Hx, Hy. rewrite Hx, Hy.
  destruct self as [ax [p0 p1] [s0 s1] nav st sp ss pk rp po ro ev].
  reflexivity.
Qed.

(** X2. Validation is the identity on a geometry that is already valid: a size
    within the extent of the axes and a far edge within its ceiling. *)
Theorem validate_geometry_keeps_valid (self : Widget) :
  snap_position self = false -> snap_size self = false ->
  let xaxis := (axes self).1 in
  let yaxis := (axes self).2 in
  (_size self).1 <= extent xaxis -> (_size self).2 <= extent yaxis ->
  (_pos self).1 + (_size self).1 <= Axis.high_value xaxis + Axis.scale xaxis ->
  (_pos self).2 + (_size self).2 <= Axis.high_value yaxis + Axis.scale yaxis ->
  _validate_geometry self None None = self.
Proof.
  intros Hp Hs xaxis yaxis. apply validate_valid_geometry; assumption.
Qed.

(** X3. Validating twice is validating once: whatever the first call is given,
    a second call without candidates finds nothing to change. *)
Theorem validate_geometry_idempotent (self : Widget) (x1 y1 : option Q) :
  snap_position self = false -> snap_size self = false ->
  let self' := _validate_geometry self x1 y1 in
  _validate_geometry self' None None = self'.
Proof.
  intros Hp Hs. cbv zeta.
  rewrite (validate_geometry_eq self x1 y1 Hp Hs). cbv zeta.
  set (s0 := Qmin (_size self).1 _). set (s1 := Qmin (_size self).2 _).
  fields.
  match goal with
  | |- _validate_geometry ?s None None = _ =>
      pose proof (validate_valid_geometry s Hp Hs) as H
  end.
  fields. apply H; clear H.
  - subst s0. minmax_cases; lra.
  - subst s1. minmax_cases; lra.
  - apply place_le_ceiling.
  - apply place_le_ceiling.
Qed.

(** ** The bounds parser *)

(** Normalise a goal about [parse_keywords]: look through the deletions
    of [pop], use the hypotheses on the lookups, decide the subtractions. *)
Ltac parse_norm :=
  repeat first
    [ rewrite lookup_delete_ne by done
    | match goal with
      | H : ?m !! ?k = _ |- context [?m !! ?k] => rewrite H
      end
    | progress cbn
    | match goal with
      | |- context [py_sub ?a ?b] =>
          let E := fresh "E" in destruct (py_sub a b) eqn:E
      end ].

(** X4. The order in which keywords are resolved: [x] before [left] and [y]
    before [top]; [right] and [bottom], when given, decide the width and
    height (as the difference to the resolved left and top) whatever [w],
    [width], [h] or [height] say; otherwise [w] before [width] and [h]
    before [height]. *)
Theorem parse_keyword_precedence (self : Widget) (args : list value)
    (kwargs : gmap string value) (v : value) :
  length args <> 1%nat -> length args <> 4%nat ->
  ~ (base.size kwargs = 1%nat /\ is_Some (kwargs !! "bounds")) ->
  _parse_bounds_args self args kwargs = Return v ->
  exists x y w h,
    v = Seq [x; y; w; h] /\
    (forall a, kwargs !! "x" = Some a -> x = a) /\
    (forall a, kwargs !! "x" = None -> kwargs !! "left" = Some a -> x = a) /\
    (forall a, kwargs !! "y" = Some a -> y = a) /\
    (forall a, kwargs !! "y" = None -> kwargs !! "top" = Some a -> y = a) /\
    (forall a, kwargs !! "right" = Some a -> py_sub a x = Return w) /\
    (forall a, kwargs !! "right" = None -> kwargs !! "w" = Some a -> w = a) /\
    (forall a, kwargs !! "right" = None -> kwargs !! "w" = None ->
               kwargs !! "width" = Some a -> w = a) /\
    (forall a, kwargs !! "bottom" = Some a -> py_sub a y = Return h) /\
    (forall a, kwargs !! "bottom" = None -> kwargs !! "h" = Some a -> h = a) /\
    (forall a, kwargs !! "bottom" = None -> kwargs !! "h" = None ->
               kwargs !! "height" = Some a -> h = a).
Proof using Type.
  clear _do_snap_position _do_snap_size.
  intros H1 H4 Hb.
  rewrite (parse_falls_to_keywords _ _ _ H1 H4 Hb).
  unfold parse_keywords, pop.
  destruct (kwargs !! "right") as [vr|] eqn:Er;
    destruct (kwargs !! "bottom") as [vb|] eqn:Eb.
  all: parse_norm; intros Hv; try discriminate; injection Hv as <-.
  all: do 4 eexists; split; [reflexivity|].
  all: repeat apply conj; intros;
       repeat match goal with
       | H : _ !! _ = _ |- _ => rewrite H in *; clear H
       end; cbn; congruence.
Qed.

(** X5. A keyword the parser does not know is ignored: adding it changes
    nothing in what the parser returns. *)
Theorem parse_ignores_unknown_keyword (self : Widget) (args : list value)
    (kwargs : gmap string value) (k : string) (v : value) :
  length args <> 1%nat -> length args <> 4%nat ->
  kwargs !! "bounds" = None ->
  k ∉ recognized_keys -> k <> "bounds"%string ->
  _parse_bounds_args self args (<[k := v]> kwargs) =
  _parse_bounds_args self args kwargs.
Proof using Type.
  clear _do_snap_position _do_snap_size.
  intros H1 H4 Hb Hk Hkb.
  rewrite !parse_falls_to_keywords; try assumption.
  2: { intros [_ [b Hx]]. congruence. }
  2: { intros [_ [b Hx]]. rewrite lookup_insert_ne in Hx by done. congruence. }
  unfold recognized_keys in Hk.
  rewrite elem_of_list_to_set in Hk.
  repeat (apply not_elem_of_cons in Hk as [? Hk]).
  unfold parse_keywords, pop.
  rewrite !lookup_delete_ne by done.
  rewrite !lookup_insert_ne by done.
  destruct (kwargs !! "right") eqn:Er; destruct (kwargs !! "bottom") eqn:Eb.
  all: repeat first
       [ rewrite lookup_delete_ne by done
       | rewrite lookup_insert_ne by done
       | rewrite Er | rewrite Eb
       | progress cbn
       | match goal with
         | |- context [py_sub ?a ?b] => destruct (py_sub a b)
         end ].
  all: reflexivity.
Qed.

(** X6. On keyword values that are all numbers the parser does not fail. *)
Theorem parse_numeric_keywords_return (self : Widget) (args : list value)
    (kwargs : gmap string value) :
  length args <> 1%nat -> length args <> 4%nat ->
  ~ (base.size kwargs = 1%nat /\ is_Some (kwargs !! "bounds")) ->
  (forall k a, kwargs !! k = Some a -> exists q, a = Num q) ->
  exists x y w h : Q,
    _parse_bounds_args self args kwargs =
    Return (Seq [Num x; Num y; Num w; Num h]).
Proof using Type.
  clear _do_snap_position _do_snap_size.
  intros H1 H4 Hb Hnum.
  rewrite (parse_falls_to_keywords _ _ _ H1 H4 Hb).
  assert (forall k d, exists q, default (Num d) (kwargs !! k) = Num q) as Hd.
  { intros k d. destruct (kwargs !! k) as [a|] eqn:E; cbn; [|by eexists].
    destruct (Hnum _ _ E) as [q ->]. by eexists. }
  assert (forall k (a : value), (exists q, a = Num q) ->
            exists q, default a (kwargs !! k) = Num q) as Hd'.
  { intros k a [q ->]. apply Hd. }
  unfold parse_keywords, pop.
  destruct (Hd' "x"%string _ (Hd "left"%string (_pos self).1)) as [x Hx].
  destruct (Hd' "y"%string _ (Hd "top"%string (_pos self).2)) as [y Hy].
  destruct (Hd' "w"%string _ (Hd "width"%string (_size self).1)) as [w Hw].
  destruct (Hd' "h"%string _ (Hd "height"%string (_size self).2)) as [h Hh].
  rewrite !lookup_delete_ne by done. rewrite Hx, Hy.
  destruct (kwargs !! "right") as [vr|] eqn:Er;
    [destruct (Hnum _ _ Er) as [r ->]|];
    (destruct (kwargs !! "bottom") as [vb|] eqn:Eb;
     [destruct (Hnum _ _ Eb) as [b ->]|]).
  all: cbn; rewrite ?lookup_delete_ne by done; rewrite ?Eb, ?Hw, ?Hh; cbn;
       rewrite ?lookup_delete_ne by done; rewrite ?Hw, ?Hh; cbn;
       by repeat eexists.
Qed.

(** ** The bounds setter *)

Lemma apply_changes_flags (self : Widget) (old_size old_position : Q * Q) :
  let self' := _apply_changes self old_size old_position in
  snap_position self' = snap_position self /\
  snap_size self' = snap_size self.
Proof using Type.
  clear _do_snap_position _do_snap_size.
  unfold _apply_changes.
  destruct (any_ne (position self) old_position),
    (any_ne (size self) old_size); cbn; auto.
Qed.

(** A successful [set_bounds] has stored four numbers that passed the four
    range checks. *)
Lemma set_bounds_return_inv (self self' : Widget) (args : list value)
    (kwargs : gmap string value) :
  set_bounds self args kwargs = (Return tt, self') ->
  exists x y w h : Q,
    _parse_bounds_args self args kwargs ≫= unpack4 =
    Return (Num x, Num y, Num w, Num h) /\
    self' = _apply_changes (set_size (set_pos self (x, y)) (w, h))
              (size self) (position self) /\
    (Axis.low_value (axes self).1 <= x /\ x <= Axis.high_value (axes self).1) /\
    (Axis.low_value (axes self).2 <= y /\ y <= Axis.high_value (axes self).2) /\
    (Axis.low_value (axes self).1 <= x + w /\
     x + w <= Axis.high_value (axes self).1 + Axis.scale (axes self).1) /\
    (Axis.low_value (axes self).2 <= y + h /\
     y + h <= Axis.high_value (axes self).2 + Axis.scale (axes self).2).
Proof using Type.
  clear _do_snap_position _do_snap_size.
  unfold set_bounds.
  destruct (_parse_bounds_args self args kwargs ≫= unpack4)
    as [[[[x y] w] h]|e]; [|discriminate].
  destruct x as [x|?]; [|cbn; discriminate].
  destruct y as [y|?]; [|cbn; destruct (in_range _ _ _); discriminate].
  destruct w as [w|?];
    [|cbn; repeat (destruct (in_range _ _ _); cbn); discriminate].
  destruct h as [h|?];
    [|cbn; repeat (destruct (in_range _ _ _); cbn); discriminate].
  cbn -[in_range].
  repeat (range_case; try discriminate).
  intros [= <-]. exists x, y, w, h. repeat split; tauto.
Qed.


(** X8. The geometry [set_bounds] accepts is valid as it is: on an axis as long
    as its value range says, the validator would change nothing in the
    widget a successful call leaves. *)
Theorem set_bounds_result_is_valid (self self' : Widget) (args : list value)
    (kwargs : gmap string value) :
  snap_position self = false -> snap_size self = false ->
  let xaxis := (axes self).1 in
  let yaxis := (axes self).2 in
  Axis.high_value xaxis + Axis.scale xaxis - Axis.low_value xaxis <= extent xaxis ->
  Axis.high_value yaxis + Axis.scale yaxis - Axis.low_value yaxis <= extent yaxis ->
  set_bounds self args kwargs = (Return tt, self') ->
  _validate_geometry self' None None = self'.
Proof.
  intros Hp Hs xaxis yaxis Hex Hey H. subst xaxis yaxis.
  apply set_bounds_return_inv in H.
  destruct H as (x & y & w & h & _ & -> & Hx & Hy & Hw & Hh).
  match goal with
  | |- context [_apply_changes ?s ?a ?b] =>
      destruct (apply_changes_fields s a b) as (Epos & Esz & _ & Eax);
      destruct (apply_changes_flags s a b) as (Efp & Efs)
  end.
  apply validate_valid_geometry;
    rewrite ?Efp, ?Efs, ?Epos, ?Esz, ?Eax; fields;
    first [assumption | lra].
Qed.

(** X9. Moving with [set_bounds(x=...)] alone keeps the top, the width and the
    height: the width is kept, not the right edge. *)
Theorem set_bounds_only_x (self self' : Widget) (x : Q) :
  set_bounds self [] {[ "x"%string := Num x ]} = (Return tt, self') ->
  position self' = (x, (_pos self).2) /\ size self' = _size self.
Proof using Type.
  clear _do_snap_position _do_snap_size.
  intros H. apply set_bounds_return_inv in H.
  destruct H as (x' & y' & w' & h' & Hp & -> & _).
  assert (_parse_bounds_args self [] {[ "x"%string := Num x ]} =
          Return (Seq [Num x; Num (_pos self).2;
                       Num (_size self).1; Num (_size self).2])) as E
    by (vm_compute; reflexivity).
  rewrite E in Hp. cbn in Hp. injection Hp as <- <- <- <-.
  match goal with
  | |- context [_apply_changes ?s ?a ?b] =>
      destruct (apply_changes_fields s a b) as (Epos & Esz & _)
  end.
  unfold position, size in *. rewrite Epos, Esz. fields.
  destruct (_size self). split; reflexivity.
Qed.

(** X10. A single positional argument that is not a sequence of four makes
    [set_bounds] raise on unpacking, a [TypeError] for a number and a
    [ValueError] for a sequence of another length, whatever the keywords;
    the widget is not touched. *)
Theorem set_bounds_bad_single_argument (self : Widget) (a : value)
    (kwargs : gmap string value) :
  (forall x y w h, a <> Seq [x; y; w; h]) ->
  exists e,
    set_bounds self [a] kwargs = (Raise e, self) /\
    match a with
    | Num _ => e = TypeError
    | Seq _ => exists msg, e = ValueError msg
    end.
Proof using Type.
  clear _do_snap_position _do_snap_size.
  intros Ha. unfold set_bounds. cbn.
  destruct a as [q|l]; cbn; [eauto|].
  destruct l as [|x [|y [|w [|h [|z l]]]]]; cbn; eauto.
  exfalso. by eapply Ha.
Qed.

(** ** Size setters and keyboard steps *)


(** X11. [_set_size] leaves each size component between one scale unit and the
    extent of its axis, whatever it is asked for and whatever the size was
    before. *)
Theorem set_size_within_scale_and_extent (self : Widget) (v : Q * Q) :
  snap_position self = false -> snap_size self = false ->
  let xaxis := (axes self).1 in
  let yaxis := (axes self).2 in
  Axis.scale xaxis <= extent xaxis -> Axis.scale yaxis <= extent yaxis ->
  let self' := _set_size self v in
  (Axis.scale xaxis <= (_size self').1 /\ (_size self').1 <= extent xaxis) /\
  (Axis.scale yaxis <= (_size self').2 /\ (_size self').2 <= extent yaxis).
Proof.
  intros Hp Hs xaxis yaxis Hex Hey. subst xaxis yaxis. cbv zeta.
  unfold _set_size. fields.
  destruct (any_ne (_size self) _) eqn:E.
  - match goal with
    | |- context [_validate_geometry ?s None None] =>
        destruct (validate_geometry_fields s None None Hp Hs) as (Esz & _);
        destruct (any_ne (_size (_validate_geometry s None None)) (_size self))
    end; unfold _size_changed; fields; rewrite Esz; fields;
      repeat split; minmax_cases; lra.
  - unfold any_ne in E. apply orb_false_elim in E as [E1 E2].
    apply negb_false_iff, Qeq_bool_iff in E1, E2. fields.
    repeat split; minmax_cases; lra.
Qed.







(** ** Dragging *)

(** X18. Dragging the rectangle as a whole translates it: where the mouse
    position less the pick offset is within the value range and the
    rectangle fits at it, that is the new position, and the size stays. *)
Theorem drag_whole_translates (self : Widget) (event : MouseEvent) :
  picked self = true -> inaxes event = true ->
  resizer_picked self = None ->
  snap_position self = false -> snap_size self = false ->
  let xaxis := (axes self).1 in
  let yaxis := (axes self).2 in
  let x := xdata event - (pick_offset self).1 in
  let y := ydata event - (pick_offset self).2 in
  (_size self).1 <= extent xaxis -> (_size self).2 <= extent yaxis ->
  Axis.low_value xaxis <= x <= Axis.high_value xaxis ->
  Axis.low_value yaxis <= y <= Axis.high_value yaxis ->
  x + (_size self).1 <= Axis.high_value xaxis + Axis.scale xaxis ->
  y + (_size self).2 <= Axis.high_value yaxis + Axis.scale yaxis ->
  let self' := _onmousemove self event in
  _pos self' = (x, y) /\ _size self' = _size self.
Proof.
  intros Hpk Hin Hrp Hp Hs xaxis yaxis x y Hw Hh [Hx1 Hx2] [Hy1 Hy2] Hx Hy.
  subst xaxis yaxis. cbv zeta.
  unfold _onmousemove. rewrite Hpk, Hin, Hrp. cbn [andb]. cbv zeta.
  fold x y.
  match goal with
  | |- context [_apply_changes ?s ?a ?b] =>
      destruct (apply_changes_fields s a b) as (-> & -> & _)
  end.
  rewrite (validate_geometry_eq _ _ _ Hp Hs). cbv zeta. fields.
  rewrite (Qmin_left _ _ Hw), (Qmin_left _ _ Hh).
  unfold place, Qgtb.
  apply Qltb_false in Hx1, Hx2, Hy1, Hy2, Hx, Hy.
  rewrite Hx1, Hx2, Hy1, Hy2, Hx, Hy.
  destruct (_size self). split; reflexivity.
Qed.





(** Use the case of an axis step that the hypotheses select. *)
Ltac pick_case H :=
  first
    [ destruct H as [? _];
      [vm_compute; congruence | first [assumption | lra] |]
    | clear H ].

(** X21. The corner index stays one of the four corners, and it changes side on
    an axis exactly when the dragged edge has crossed the opposite edge on
    that axis: left and right swap when the x step flips, top and bottom
    when the y step flips. *)
Theorem drag_corner_flip_law (self : Widget) (event : MouseEvent)
    (corner : Z) :
  picked self = true -> inaxes event = true ->
  resizer_picked self = Some corner ->
  snap_position self = false -> snap_size self = false ->
  (0 <= corner <= 3)%Z ->
  let x := xdata event
           + (resizer_offset self).1 * (0.5 - 1 * inject_Z (corner mod 2)) in
  let y := ydata event
           + (resizer_offset self).2 * (0.5 - 1 * inject_Z (corner / 2)) in
  let left := (_get_patch_xy self).1 in
  let top := (_get_patch_xy self).2 in
  let right := left + (_size self).1 in
  let bottom := top + (_size self).2 in
  let crossed_x := if (corner mod 2 =? 0)%Z then right < x else x < left in
  let crossed_y := if (corner / 2 =? 0)%Z then bottom < y else y < top in
  exists c',
    resizer_picked (_onmousemove self event) = Some c' /\
    (0 <= c' <= 3)%Z /\
    (crossed_x -> (c' mod 2)%Z <> (corner mod 2)%Z) /\
    (~ crossed_x -> (c' mod 2)%Z = (corner mod 2)%Z) /\
    (crossed_y -> (c' / 2)%Z <> (corner / 2)%Z) /\
    (~ crossed_y -> (c' / 2)%Z = (corner / 2)%Z).
Proof.
  intros Hpk Hin Hrp Hp Hs Hc x y left top right bottom crossed_x crossed_y.
  destruct (onmousemove_corner self event corner Hpk Hin Hrp Hp Hs)
    as (Hrk & _ & _).
  cbv zeta in Hrk. fold x y left top right bottom in Hrk. rewrite Hrk.
  destruct (resize_x_spec self corner x left right)
    as (_ & Hx1 & Hx2 & Hx3 & Hx4).
  set (s1 := (resize_x self corner x left right).2) in *.
  destruct (resize_y_spec s1 corner y top bottom)
    as (_ & Hy1 & Hy2 & Hy3 & Hy4).
  set (s2 := (resize_y s1 corner y top bottom).2) in *.
  cbv zeta in Hx1, Hx2, Hx3, Hx4, Hy1, Hy2, Hy3, Hy4.
  subst crossed_x crossed_y.
  clearbody s2 s1 x y left top right bottom. clear Hrk.
  rewrite Hrp in *.
  assert (corner = 0 \/ corner = 1 \/ corner = 2 \/ corner = 3)%Z
    as [-> | [-> | [-> | ->]]] by lia.
  all: destruct (Qlt_le_dec right x), (Qlt_le_dec x left),
         (Qlt_le_dec bottom y), (Qlt_le_dec y top).
  all: pick_case Hx1; pick_case Hx2; pick_case Hx3; pick_case Hx4.
  all: pick_case Hy1; pick_case Hy2; pick_case Hy3; pick_case Hy4.
  all: repeat match goal with
       | H : resizer_picked _ = _ |- _ => rewrite H in *; clear H
       end.
  all: eexists; split; [reflexivity|].
  all: change ((0 mod 2 =? 0)%Z) with true; change ((1 mod 2 =? 0)%Z) with false;
       change ((2 mod 2 =? 0)%Z) with true; change ((3 mod 2 =? 0)%Z) with false;
       change ((0 / 2 =? 0)%Z) with true; change ((1 / 2 =? 0)%Z) with true;
       change ((2 / 2 =? 0)%Z) with false; change ((3 / 2 =? 0)%Z) with false;
       cbv iota.
  all: repeat apply conj; intros;
       first [ exfalso; lra | vm_compute; congruence | tauto ].
Qed.



End RectangleWidget.

(** * The properties on concrete widgets *)


Lemma validate_geometry_moves_not_shrinks_witness :
  let self' :=
    _validate_geometry spec_do_snap_position spec_do_snap_size
      (picked_widget 3) (Some 100) (Some (-7)) in
  _size self' = (Qmin 3 (extent axis_0_10), Qmin 3 (extent axis_0_10)) /\
  (_pos self').1 == spec_place axis_0_10 100 (Qmin 3 (extent axis_0_10)) /\
  (_pos self').2 == spec_place axis_0_10 (-7) (Qmin 3 (extent axis_0_10)).
Proof.
  apply (validate_geometry_moves_not_shrinks spec_do_snap_position
           spec_do_snap_size (picked_widget 3) 100 (-7));
    first [reflexivity | discriminate].
Defined.




Lemma set_bounds_read_back_witness :
  exists self',
    set_bounds (picked_widget 3) [Num 1; Num 2; Num 4; Num (9 # 2)] ∅ =
    (Return tt, self') /\
    position self' = (1, 2) /\ size self' = (4, 9 # 2).
Proof.
  apply (set_bounds_read_back (picked_widget 3)
           [Num 1; Num 2; Num 4; Num (9 # 2)] ∅ 1 2 4 (9 # 2) eq_refl);
    split; vm_compute; discriminate.
Defined.

(** C8, as stated, fails: two positional values match none of the accepted
    shapes, and the parser returns the current geometry instead of
    raising. *)
Lemma parse_bounds_no_shape_error_counterexample :
  accepted_shape [Num 1; Num 2] ∅ = false /\
  _parse_bounds_args (picked_widget 3) [Num 1; Num 2] ∅ =
  Return (Seq [Num 5; Num 5; Num 3; Num 3]).
Proof. split; vm_compute; reflexivity. Qed.

(** Only [x] is given: the other three dimensions are the current ones. *)
Lemma parse_bounds_keyword_defaults_witness :
  exists x y w h,
    _parse_bounds_args (picked_widget 3) [] {[ "x"%string := Num 4 ]} =
    Return (Seq [x; y; w; h]) /\
    y = Num 5 /\ w = Num 3 /\ h = Num 3.
Proof.
  destruct (parse_bounds_keyword_defaults (picked_widget 3) []
              {[ "x"%string := Num 4 ]}) as [_ H].
  - discriminate.
  - discriminate.
  - intros [_ [b Hb]]. vm_compute in Hb. discriminate.
  - destruct (H (Seq [Num 4; Num 5; Num 3; Num 3]))
      as (x & y & w & h & Hv & _ & Hy & Hw & Hh).
    + vm_compute. reflexivity.
    + exists x, y, w, h.
      split; [rewrite <- Hv; vm_compute; reflexivity|].
      repeat split; [apply Hy | apply Hw | apply Hh]; vm_compute; reflexivity.
Defined.







(** C7 on the key-step path. Increasing the width of a rectangle that is
    already as wide as the axis commits the geometry it had, and a
    size-changed event is fired all the same; decreasing the width of a
    rectangle that follows the cursor moves it, and no position-changed
    event is fired. *)
Theorem set_a_size_breaks_notification_law :
  (let self := full_width_widget in
   let self' := _increase_xsize spec_do_snap_position spec_do_snap_size self in
   position self' = position self /\ size self' = size self /\
   events self' = [size_changed]) /\
  (let self := navigating_widget in
   let self' := _decrease_xsize spec_do_snap_position spec_do_snap_size self in
   position self = (2, 2) /\ position self' = (3, 2) /\
   events self' = [size_changed]).
Proof. vm_compute. repeat split. Qed.


(** * The further properties on concrete widgets *)

(** Decide a closed side condition by evaluation. *)
Ltac closed_fact :=
  vm_compute;
  repeat match goal with |- _ /\ _ => split end;
  first [reflexivity | discriminate | intros; discriminate | tauto].


Lemma validate_geometry_keeps_valid_witness :
  _validate_geometry spec_do_snap_position spec_do_snap_size
    (picked_widget 3) None None = picked_widget 3.
Proof.
  apply (validate_geometry_keeps_valid spec_do_snap_position
           spec_do_snap_size (picked_widget 3) eq_refl eq_refl);
    closed_fact.
Defined.

Lemma validate_geometry_idempotent_witness :
  let self' :=
    _validate_geometry spec_do_snap_position spec_do_snap_size
      (picked_widget 3) (Some 100) (Some (-7)) in
  _validate_geometry spec_do_snap_position spec_do_snap_size self' None None
  = self'.
Proof.
  apply (validate_geometry_idempotent spec_do_snap_position
           spec_do_snap_size (picked_widget 3) (Some 100) (Some (-7))
           eq_refl eq_refl).
Defined.

(** [x] wins over [left] and [right] over [w]: the width is 9 - 4. *)
Lemma parse_keyword_precedence_witness :
  exists x y w h,
    Seq [Num 4; Num 5; Num (9 - 4); Num 3] = Seq [x; y; w; h] /\
    x = Num 4 /\ py_sub (Num 9) x = Return w.
Proof.
  pose (kwargs := (<["x"%string := Num 4]> (<["left"%string := Num 1]>
                  (<["right"%string := Num 9]> (<["w"%string := Num 2]> ∅))))
                  : gmap string value).
  destruct (parse_keyword_precedence (picked_widget 3) [] kwargs
              (Seq [Num 4; Num 5; Num (9 - 4); Num 3]))
    as (x & y & w & h & Hv & Hx & _ & _ & _ & Hr & _).
  - discriminate.
  - discriminate.
  - intros [Hsz _]. vm_compute in Hsz. discriminate.
  - vm_compute. reflexivity.
  - exists x, y, w, h. split; [exact Hv|].
    split; [apply Hx | apply Hr]; vm_compute; reflexivity.
Defined.

Lemma parse_ignores_unknown_keyword_witness :
  _parse_bounds_args (picked_widget 3) []
    (<["colour"%string := Num 7]> {[ "x"%string := Num 4 ]}) =
  _parse_bounds_args (picked_widget 3) [] {[ "x"%string := Num 4 ]}.
Proof.
  apply (parse_ignores_unknown_keyword (picked_widget 3) []
           {[ "x"%string := Num 4 ]} "colour" (Num 7)).
  - discriminate.
  - discriminate.
  - vm_compute. reflexivity.
  - apply (bool_decide_unpack _). vm_compute. reflexivity.
  - discriminate.
Defined.

Lemma parse_numeric_keywords_return_witness :
  exists x y w h : Q,
    _parse_bounds_args (picked_widget 3) []
      (<["x"%string := Num 4]> {[ "bottom"%string := Num 9 ]}) =
    Return (Seq [Num x; Num y; Num w; Num h]).
Proof.
  apply (parse_numeric_keywords_return (picked_widget 3) []
           (<["x"%string := Num 4]> {[ "bottom"%string := Num 9 ]})).
  - discriminate.
  - discriminate.
  - intros [Hsz _]. vm_compute in Hsz. discriminate.
  - intros k a Hk.
    apply lookup_insert_Some in Hk as [[_ <-]|[_ Hk]]; [by eexists|].
    apply lookup_singleton_Some in Hk as [_ <-]. by eexists.
Defined.


Lemma set_bounds_result_is_valid_witness :
  let self' :=
    (set_bounds (picked_widget 3) [Num 1; Num 2; Num 4; Num (9 # 2)] ∅).2 in
  _validate_geometry spec_do_snap_position spec_do_snap_size self' None None
  = self'.
Proof.
  apply (set_bounds_result_is_valid spec_do_snap_position spec_do_snap_size
           (picked_widget 3) _ [Num 1; Num 2; Num 4; Num (9 # 2)] ∅
           eq_refl eq_refl); closed_fact.
Defined.

Lemma set_bounds_only_x_witness :
  let self' := (set_bounds (picked_widget 3) [] {[ "x"%string := Num 6 ]}).2 in
  position self' = (6, 5) /\ size self' = (3, 3).
Proof.
  apply (set_bounds_only_x (picked_widget 3) _ 6). vm_compute. reflexivity.
Defined.

Lemma set_bounds_bad_single_argument_witness :
  exists e,
    set_bounds (picked_widget 3) [Seq [Num 1; Num 2]] ∅ =
    (Raise e, picked_widget 3) /\
    exists msg, e = ValueError msg.
Proof.
  apply (set_bounds_bad_single_argument (picked_widget 3)
           (Seq [Num 1; Num 2]) ∅).
  discriminate.
Defined.

Lemma set_size_within_scale_and_extent_witness :
  let self' :=
    _set_size spec_do_snap_position spec_do_snap_size unit_widget
      (100, -3) in
  (1 <= (_size self').1 /\ (_size self').1 <= extent axis_0_10) /\
  (1 <= (_size self').2 /\ (_size self').2 <= extent axis_0_10).
Proof.
  apply (set_size_within_scale_and_extent spec_do_snap_position
           spec_do_snap_size unit_widget (100, -3) eq_refl eq_refl);
    closed_fact.
Defined.

Lemma set_size_notifies_on_change_witness :
  let self' :=
    _set_size spec_do_snap_position spec_do_snap_size unit_widget (2, 1) in
  events self' =
  [] ++ (if any_ne (_size self') (1, 1) then [size_changed] else []).
Proof.
  apply (set_size_notifies_on_change spec_do_snap_position spec_do_snap_size
           unit_widget (2, 1) eq_refl eq_refl).
Defined.






Lemma drag_whole_translates_witness :
  let self' :=
    _onmousemove spec_do_snap_position spec_do_snap_size dragged_widget
      (mkMouseEvent true 7 4) in
  _pos self' = (7 - 1, 4 - 1) /\ _size self' = (3, 3).
Proof.
  apply (drag_whole_translates spec_do_snap_position spec_do_snap_size
           dragged_widget (mkMouseEvent true 7 4)
           eq_refl eq_refl eq_refl eq_refl eq_refl); closed_fact.
Defined.



Lemma drag_corner_flip_law_witness :
  exists c',
    resizer_picked
      (_onmousemove spec_do_snap_position spec_do_snap_size
         (picked_widget 1) (mkMouseEvent true 2 9)) = Some c' /\
    (0 <= c' <= 3)%Z.
Proof.
  pose proof (drag_corner_flip_law spec_do_snap_position spec_do_snap_size
                (picked_widget 1) (mkMouseEvent true 2 9) 1
                eq_refl eq_refl eq_refl eq_refl eq_refl) as H.
  cbv zeta in H. destruct H as (c' & Hc & Hr & _); [lia|].
  exists c'. split; assumption.
Defined.

